(** * NASA APOD client: a shallow embedding of [nasa_tools/nasa_apod.py]

    The file has one function, [get_nasa_apod]: it builds the query
    parameters, performs one HTTP GET, and reshapes the JSON answer into
    records.  Python values are embedded as the inductive [pyval], Python
    dictionaries as [gmap string pyval], raised exceptions as the [Raised]
    branch of the [outcome] monad (instances of [Exception] apart from the
    other instances of [BaseException]), and the network as a function
    from the request to the outcome of [requests.get]. *)

From Stdlib Require Import ZArith Floats.PrimFloat.
From stdpp Require Import base option list strings gmap.

Set Warnings "-register-all,-clear-no-such-hyp".
Open Scope Z_scope.

(** ** Python values *)

(** What [json.loads] can produce, which is also all that is ever stored in
    the parameter dictionary and in the dataclass fields (dataclasses do not
    check their annotations at run time). *)
Inductive pyval : Type :=
  | PyNone
  | PyBool (b : bool)
  | PyInt (n : Z)
  | PyFloat (f : float)
  | PyStr (s : string)
  | PyList (l : list pyval)
  | PyDict (m : gmap string pyval).

(** [bool(v)], the test behind [if v:] and [v or w]. *)
Definition truthy (v : pyval) : bool :=
  match v with
  | PyNone => false
  | PyBool b => b
  | PyInt n => negb (Z.eqb n 0)
  | PyFloat f => negb (PrimFloat.eqb f 0%float)
  | PyStr s => negb (String.eqb s "")
  | PyList l => match l with [] => false | _ :: _ => true end
  | PyDict m => negb (bool_decide (m = ∅))
  end.

(** [v or w]. *)
Definition py_or (v w : pyval) : pyval := if truthy v then v else w.

(** [v == s] for a string literal [s]: only a [str] with the same characters
    compares equal. *)
Definition py_eq_str (v : pyval) (s : string) : bool :=
  match v with
  | PyStr t => String.eqb t s
  | _ => false
  end.

(** [type(v).__name__]. *)
Definition type_name (v : pyval) : string :=
  match v with
  | PyNone => "NoneType"
  | PyBool _ => "bool"
  | PyInt _ => "int"
  | PyFloat _ => "float"
  | PyStr _ => "str"
  | PyList _ => "list"
  | PyDict _ => "dict"
  end.

(** An [Optional[int]] or [Optional[str]] argument seen as a value. *)
Definition of_opt_int (c : option Z) : pyval := from_option PyInt PyNone c.
Definition of_opt_str (s : option string) : pyval := from_option PyStr PyNone s.

(** ** Exceptions and the outcome monad *)

(** The instances of [Exception] that occur: those an [except Exception]
    clause catches. *)
Inductive exn : Type :=
  | AttributeError (ty attr : string)
  | RequestException (description : string)
  | JSONDecodeError (description : string).

(** [str(e)]. *)
Definition str_exn (e : exn) : string :=
  match e with
  | AttributeError ty attr =>
      "'" +:+ ty +:+ "' object has no attribute '" +:+ attr +:+ "'"
  | RequestException d => d
  | JSONDecodeError d => d
  end.

(** Everything that can be raised: the instances of [Exception], and the
    instances of [BaseException] outside [Exception], which an
    [except Exception] clause lets through. *)
Inductive base_exn : Type :=
  | Exception (e : exn)
  | KeyboardInterrupt
  | SystemExit.

(** An instance of [Exception] is an instance of [BaseException]. *)
Coercion Exception : exn >-> base_exn.

(** [isinstance(b, Exception)]. *)
Definition is_Exception (b : base_exn) : bool :=
  match b with
  | Exception _ => true
  | KeyboardInterrupt | SystemExit => false
  end.

Inductive outcome (A : Type) : Type :=
  | Returned (a : A)
  | Raised (e : base_exn).
Arguments Returned {A} a.
Arguments Raised {A} e.

#[global] Instance outcome_ret : MRet outcome := λ A a, Returned a.
#[global] Instance outcome_bind : MBind outcome := λ A B k c,
  match c with
  | Returned a => k a
  | Raised e => Raised e
  end.

(** [v.get(key, dflt)]: defined on dictionaries only; every other value has
    no attribute [get]. *)
Definition py_get (v : pyval) (key : string) (dflt : pyval) : outcome pyval :=
  match v with
  | PyDict m => Returned (default dflt (m !! key))
  | _ => Raised (Exception (AttributeError (type_name v) "get"))
  end.

(** ** Data model (lines 9-40) *)

Record NASAAPOD : Type := {
  apod_title : pyval;
  explanation : pyval;
  date : pyval;
  multimedia_link : pyval;
  hd_multimedia_link : pyval;
  video_thumbnail_url : pyval;
  copyright_person_name : pyval
}.

Record NASAAPODResponse : Type := { nasa_apods : list NASAAPOD }.

(** [http.HTTPStatus], the two members the client uses, and their integer
    values. *)
Module HTTPStatus.
Inductive member : Type :=
  | OK
  | INTERNAL_SERVER_ERROR.
Definition value (m : member) : Z :=
  match m with
  | OK => 200
  | INTERNAL_SERVER_ERROR => 500
  end.
End HTTPStatus.

(** [HTTPStatus] is an [IntEnum]: a member is used as its integer wherever
    an integer is expected, as in [status_code != http.HTTPStatus.OK]. *)
Coercion HTTPStatus.value : HTTPStatus.member >-> Z.

(** What [ErrorDetails.status_code] holds: the plain [int] of
    [api_response.status_code] (line 92), or the member of [HTTPStatus]
    itself (line 85).  The two differ in type and in [repr] even when the
    integers agree. *)
Inductive status : Type :=
  | IntStatus (n : Z)
  | EnumStatus (m : HTTPStatus.member).

(** [int(s)]. *)
Definition int_of_status (s : status) : Z :=
  match s with
  | IntStatus n => n
  | EnumStatus m => HTTPStatus.value m
  end.

(** [s == t] on status codes: a member of an [IntEnum] compares as its
    integer. *)
Definition status_eqb (s t : status) : bool :=
  Z.eqb (int_of_status s) (int_of_status t).

Record ErrorDetails : Type := { status_code : status; message : pyval }.

(** [NASA_API_KEY = os.getenv("NASA_API_KEY") or "DEMO_KEY"] (line 43). *)
Definition NASA_API_KEY (getenv : option string) : string :=
  match py_or (of_opt_str getenv) (PyStr "DEMO_KEY") with
  | PyStr s => s
  | _ => "DEMO_KEY"
  end.

(** The arguments of [get_nasa_apod] once bound (lines 47-54). *)
Record QueryOptions : Type := {
  api_key : string;
  apod_date : option string;
  start_date : option string;
  end_date : option string;
  count : option Z;
  thumbs : bool
}.

(** A call as the caller writes it: [api_key] and [thumbs] may be left out
    and then take the defaults of the signature. *)
Record CallInput : Type := {
  in_api_key : option string;
  in_apod_date : option string;
  in_start_date : option string;
  in_end_date : option string;
  in_count : option Z;
  in_thumbs : option bool
}.

Definition bind_arguments (getenv : option string) (i : CallInput) : QueryOptions :=
  {| api_key := default (NASA_API_KEY getenv) (in_api_key i);
     apod_date := in_apod_date i;
     start_date := in_start_date i;
     end_date := in_end_date i;
     count := in_count i;
     thumbs := default false (in_thumbs i) |}.

(** ** The request (lines 69-81) *)

(** The dictionary [params] as it stands after line 77. *)
Definition params (o : QueryOptions) : gmap string pyval :=
  let params : gmap string pyval :=
    <["thumbs" := PyBool (thumbs o)]> {["api_key" := PyStr (api_key o)]} in
  if truthy (of_opt_int (count o)) then
    <["count" := of_opt_int (count o)]> params
  else if truthy (of_opt_str (apod_date o)) then
    <["date" := of_opt_str (apod_date o)]> params
  else if truthy (of_opt_str (start_date o)) then
    let params := <["start_date" := of_opt_str (start_date o)]> params in
    if truthy (of_opt_str (end_date o)) then
      <["end_date" := of_opt_str (end_date o)]> params
    else params
  else params.

Record Request : Type := {
  url : string;
  req_params : gmap string pyval;
  timeout : Z
}.

(** The arguments of the one [requests.get] call (line 81). *)
Definition request (o : QueryOptions) : Request :=
  {| url := "https://api.nasa.gov/planetary/apod";
     req_params := params o;
     timeout := 10 |}.

(** What comes back: the status code, and what [.json()] does on the body. *)
Record Response : Type := {
  resp_status_code : Z;
  resp_json : outcome pyval
}.

(** ** The response mapper (lines 94-112) *)

(** The body of the [for] loop: one item to one entry.  The keyword
    arguments are evaluated in the order they are written. *)
Definition NASAAPOD_of_item (item : pyval) : outcome NASAAPOD :=
  m_type ← py_get item "media_type" PyNone;
  title ← py_get item "title" (PyStr "Untitled");
  expl ← py_get item "explanation" (PyStr "");
  dt ← py_get item "date" (PyStr "");
  link ← py_get item "url" (PyStr "");
  copyright ← py_get item "copyright" PyNone;
  hd ← (if py_eq_str m_type "image" then py_get item "hdurl" PyNone
        else mret PyNone);
  thumb ← (if py_eq_str m_type "video" then py_get item "thumbnail_url" PyNone
           else mret PyNone);
  mret {| apod_title := title;
          explanation := expl;
          date := dt;
          multimedia_link := link;
          hd_multimedia_link := hd;
          video_thumbnail_url := thumb;
          copyright_person_name := copyright |}.

(** [json_response if isinstance(json_response, list) else [json_response]]. *)
Definition raw_data_list (json_response : pyval) : list pyval :=
  match json_response with
  | PyList l => l
  | _ => [json_response]
  end.

(** The loop itself: [nasa_apods] is the accumulator the loop appends to;
    the first item that raises ends the loop. *)
Fixpoint for_items (items : list pyval) (nasa_apods : list NASAAPOD)
  : outcome (list NASAAPOD) :=
  match items with
  | [] => mret nasa_apods
  | item :: items =>
      entry ← NASAAPOD_of_item item;
      for_items items (nasa_apods ++ [entry])
  end.

(** ** [get_nasa_apod] (lines 47-112) *)

(** [requests_get] stands for the network: what [requests.get] does with
    the request. *)
Definition get_nasa_apod (requests_get : Request → outcome Response)
    (o : QueryOptions) : outcome (NASAAPODResponse + ErrorDetails) :=
  match
    (api_response ← requests_get (request o);
     json_response ← resp_json api_response;
     mret (api_response, json_response))
  with
  | Raised (Exception e) =>
      mret (inr {| status_code :=
                     EnumStatus HTTPStatus.INTERNAL_SERVER_ERROR;
                   message := PyStr ("Failed to connect or parse JSON: "
                                     +:+ str_exn e) |})
  | Raised not_an_Exception =>
      (* [except Exception] does not catch it *)
      Raised not_an_Exception
  | Returned (api_response, json_response) =>
      if bool_decide (resp_status_code api_response ≠ HTTPStatus.OK) then
        msg ← py_get json_response "msg" PyNone;
        (* [msg or ...]: the right operand is evaluated only when [msg]
           is falsy *)
        error_msg ← (if truthy msg then mret msg
                     else
                       err ← py_get json_response "error" (PyDict ∅);
                       py_get err "message" (PyStr "Unknown error"));
        mret (inr {| status_code :=
                       IntStatus (resp_status_code api_response);
                     message := error_msg |})
      else
        nasa_apods ← for_items (raw_data_list json_response) [];
        mret (inl {| nasa_apods := nasa_apods |})
  end.

(** A network that answers every request with a status and a JSON body. *)
Definition answers (status : Z) (body : pyval) : Request → outcome Response :=
  λ _, Returned {| resp_status_code := status; resp_json := Returned body |}.

(** [isinstance(v, dict)]: the values on which [.get] exists. *)
Definition is_dict (v : pyval) : bool :=
  match v with
  | PyDict _ => true
  | _ => false
  end.

(** The value built by the [except] branch (lines 84-87). *)
Definition failure_details (e : exn) : ErrorDetails :=
  {| status_code := EnumStatus HTTPStatus.INTERNAL_SERVER_ERROR;
     message := PyStr ("Failed to connect or parse JSON: " +:+ str_exn e) |}.

(** [sub in s] on strings. *)
Definition str_contains (s sub : string) : Prop :=
  ∃ pre post, s = pre +:+ sub +:+ post.

(** ** Sample calls and upstream bodies *)
Definition count_zero_and_date : QueryOptions :=
  {| api_key := "DEMO_KEY"; apod_date := Some "2026-01-18";
     start_date := None; end_date := None; count := Some 0;
     thumbs := false |}.

Definition count_and_all_dates : QueryOptions :=
  {| api_key := "DEMO_KEY"; apod_date := Some "2026-01-18";
     start_date := Some "2026-01-01"; end_date := Some "2026-01-07";
     count := Some 5; thumbs := true |}.

Definition empty_start_date : QueryOptions :=
  {| api_key := "DEMO_KEY"; apod_date := None;
     start_date := Some ""; end_date := Some "2026-01-07";
     count := None; thumbs := false |}.

Definition start_date_only : QueryOptions :=
  {| api_key := "DEMO_KEY"; apod_date := None;
     start_date := Some "2026-01-01"; end_date := None;
     count := None; thumbs := false |}.

Definition default_call : CallInput :=
  {| in_api_key := None; in_apod_date := None; in_start_date := None;
     in_end_date := None; in_count := None; in_thumbs := None |}.

(** [{"title":"X","date":"2026-01-18","url":"http://u","media_type":"image",
    "hdurl":"http://h"}] *)
Definition image_item : gmap string pyval :=
  <["hdurl" := PyStr "http://h"]>
    (<["media_type" := PyStr "image"]>
       (<["url" := PyStr "http://u"]>
          (<["date" := PyStr "2026-01-18"]> {["title" := PyStr "X"]}))).

(** The same with ["media_type":"video"] and a [thumbnail_url]. *)
Definition video_item : gmap string pyval :=
  <["thumbnail_url" := PyStr "http://t"]>
    (<["media_type" := PyStr "video"]>
       (<["url" := PyStr "http://u"]>
          (<["date" := PyStr "2026-01-18"]> {["title" := PyStr "X"]}))).

(** [{"error":{"message":"rate limited"}}] *)
Definition rate_limited_body : gmap string pyval :=
  {["error" := PyDict {["message" := PyStr "rate limited"]}]}.


(** [{"media_type":"other"}]: every defaulted field is missing. *)
Definition bare_item : gmap string pyval :=
  {["media_type" := PyStr "other"]}.

Definition image_entry : NASAAPOD :=
  {| apod_title := PyStr "X"; explanation := PyStr "";
     date := PyStr "2026-01-18"; multimedia_link := PyStr "http://u";
     hd_multimedia_link := PyStr "http://h";
     video_thumbnail_url := PyNone;
     copyright_person_name := PyNone |}.

Definition bare_entry : NASAAPOD :=
  {| apod_title := PyStr "Untitled"; explanation := PyStr "";
     date := PyStr ""; multimedia_link := PyStr "";
     hd_multimedia_link := PyNone;
     video_thumbnail_url := PyNone;
     copyright_person_name := PyNone |}.

(** * Properties *)

(** ** The parameter dictionary, key by key *)

Section params_lookup.
Variable o : QueryOptions.

Local Abbreviation c := (of_opt_int (count o)).
Local Abbreviation d := (of_opt_str (apod_date o)).
Local Abbreviation s := (of_opt_str (start_date o)).
Local Abbreviation e := (of_opt_str (end_date o)).

Ltac params_key :=
  unfold params;
  destruct (truthy c), (truthy d), (truthy s), (truthy e);
  repeat (rewrite lookup_insert_ne by discriminate);
  rewrite ?lookup_insert_eq, ?lookup_singleton_ne, ?lookup_singleton_eq
    by discriminate;
  reflexivity.

Lemma params_api_key : params o !! "api_key" = Some (PyStr (api_key o)).
Proof. params_key. Qed.

Lemma params_thumbs : params o !! "thumbs" = Some (PyBool (thumbs o)).
Proof. params_key. Qed.

Lemma params_count :
  params o !! "count" = if truthy c then Some c else None.
Proof. params_key. Qed.

Lemma params_date :
  params o !! "date" =
  if truthy c then None else if truthy d then Some d else None.
Proof. params_key. Qed.

Lemma params_start_date :
  params o !! "start_date" =
  if truthy c then None else if truthy d then None
  else if truthy s then Some s else None.
Proof. params_key. Qed.

Lemma params_end_date :
  params o !! "end_date" =
  if truthy c then None else if truthy d then None
  else if truthy s then (if truthy e then Some e else None) else None.
Proof. params_key. Qed.

(** No key but these six is ever sent. *)
Lemma params_dom :
  dom (params o) ⊆
  ({["api_key"; "thumbs"; "count"; "date"; "start_date"; "end_date"]}
     : gset string).
Proof.
  unfold params.
  destruct (truthy c), (truthy d), (truthy s), (truthy e);
    rewrite ?dom_insert_L, ?dom_singleton_L;
    apply elem_of_subseteq; intros k Hk;
    rewrite ?elem_of_union, ?elem_of_singleton in *; tauto.
Qed.
End params_lookup.

(** Truthiness of the optional arguments, spelled out. *)
Lemma truthy_of_opt_int (c : option Z) :
  truthy (of_opt_int c) = true ↔ ∃ n, c = Some n ∧ n ≠ 0.
Proof.
  destruct c as [n|]; simpl.
  - rewrite negb_true_iff, Z.eqb_neq. naive_solver.
  - naive_solver.
Qed.

Lemma truthy_of_opt_str (x : option string) :
  truthy (of_opt_str x) = true ↔ ∃ t, x = Some t ∧ t ≠ "".
Proof.
  destruct x as [t|]; simpl.
  - rewrite negb_true_iff, String.eqb_neq. naive_solver.
  - naive_solver.
Qed.

Lemma not_truthy_of_opt_str (x : option string) :
  truthy (of_opt_str x) = false ↔ x = None ∨ x = Some "".
Proof.
  destruct x as [t|]; simpl.
  - rewrite negb_false_iff, String.eqb_eq. naive_solver.
  - naive_solver.
Qed.

(** ** Request modes *)

(** C1, as the claim words it, fails: [count=0] is a count that is set, yet
    the test [if count:] is false for it, so with a date also given the
    request carries [date] and no [count]. *)
Lemma count_zero_is_set_but_not_sent :
  is_Some (count count_zero_and_date) ∧
  ¬ (is_Some (params count_zero_and_date !! "count") ∧
     params count_zero_and_date !! "date" = None ∧
     params count_zero_and_date !! "start_date" = None ∧
     params count_zero_and_date !! "end_date" = None).
Proof.
  split; [by eexists|].
  rewrite params_count. simpl. intros [[? [=]] _].
Qed.

(** C1 (amended): when [count] is set to a nonzero number the request
    carries [count] and none of [date], [start_date], [end_date], whatever
    the date arguments are; and for every call, no two conflicting mode keys
    are in the request together. *)
Theorem params_count_takes_precedence (o : QueryOptions) :
  (∀ n, count o = Some n → n ≠ 0 →
     params o !! "count" = Some (PyInt n) ∧
     params o !! "date" = None ∧
     params o !! "start_date" = None ∧
     params o !! "end_date" = None) ∧
  ¬ (is_Some (params o !! "count") ∧ is_Some (params o !! "date")) ∧
  ¬ (is_Some (params o !! "count") ∧
     (is_Some (params o !! "start_date") ∨ is_Some (params o !! "end_date"))) ∧
  ¬ (is_Some (params o !! "date") ∧
     (is_Some (params o !! "start_date") ∨ is_Some (params o !! "end_date"))).
Proof.
  rewrite params_count, params_date, params_start_date, params_end_date.
  split.
  - intros n Hc Hn.
    assert (truthy (of_opt_int (count o)) = true) as ->
      by (apply truthy_of_opt_int; eauto).
    by rewrite Hc.
  - destruct (truthy (of_opt_int (count o))),
      (truthy (of_opt_str (apod_date o))),
      (truthy (of_opt_str (start_date o))),
      (truthy (of_opt_str (end_date o)));
      repeat split; rewrite ?is_Some_alt; naive_solver.
Qed.

Lemma params_count_takes_precedence_witness :
  params count_and_all_dates !! "count" = Some (PyInt 5) ∧
  params count_and_all_dates !! "date" = None ∧
  params count_and_all_dates !! "start_date" = None ∧
  params count_and_all_dates !! "end_date" = None.
Proof.
  apply (proj1 (params_count_takes_precedence count_and_all_dates) 5).
  - reflexivity.
  - lia.
Defined.

(** C7, as the claim words it, fails: an empty [start_date] is set, but
    [elif start_date:] is false for it and the request has no [start_date]
    key. *)
Lemma empty_start_date_is_set_but_not_sent :
  count empty_start_date = None ∧
  apod_date empty_start_date = None ∧
  is_Some (start_date empty_start_date) ∧
  params empty_start_date !! "start_date" = None.
Proof.
  split; [reflexivity|]. split; [reflexivity|]. split; [by eexists|].
  by rewrite params_start_date.
Qed.

(** C7 (amended): with no count and no single date, the request carries
    [start_date] exactly when [start_date] is set to a non-empty string;
    it then carries [end_date] if and only if [end_date] is also set to a
    non-empty string; and when [start_date] is unset or empty the request
    carries no date-related key at all, even when [end_date] is given. *)
Theorem params_date_range (o : QueryOptions) :
  count o = None → apod_date o = None →
  (∀ s, start_date o = Some s → s ≠ "" →
     params o !! "start_date" = Some (PyStr s) ∧
     (is_Some (params o !! "end_date") ↔
        ∃ e, end_date o = Some e ∧ e ≠ "") ∧
     (∀ e, end_date o = Some e → e ≠ "" →
        params o !! "end_date" = Some (PyStr e))) ∧
  (start_date o = None ∨ start_date o = Some "" →
     params o !! "date" = None ∧
     params o !! "start_date" = None ∧
     params o !! "end_date" = None) ∧
  params o !! "date" = None ∧
  params o !! "count" = None.
Proof.
  intros Hc Hd.
  rewrite params_count, params_date, params_start_date, params_end_date.
  rewrite Hc, Hd. simpl. split; [|split; [|done]].
  - intros s Hs Hne.
    assert (truthy (of_opt_str (start_date o)) = true) as ->
      by (apply truthy_of_opt_str; eauto).
    rewrite Hs. simpl. split; [done|]. split.
    + rewrite <- truthy_of_opt_str.
      destruct (truthy (of_opt_str (end_date o))); [by split; eauto|].
      split; [by intros [? [=]]|done].
    + intros e He Hee.
      assert (truthy (of_opt_str (end_date o)) = true) as ->
        by (apply truthy_of_opt_str; eauto).
      by rewrite He.
  - intros Hs. apply not_truthy_of_opt_str in Hs. by rewrite Hs.
Qed.

Lemma params_date_range_witness :
  params start_date_only !! "start_date" = Some (PyStr "2026-01-01") ∧
  params start_date_only !! "end_date" = None.
Proof.
  destruct (params_date_range start_date_only) as [Hset _];
    [reflexivity | reflexivity |].
  destruct (Hset "2026-01-01") as (Hs & He & _); [reflexivity | discriminate |].
  split; [exact Hs|].
  destruct (params start_date_only !! "end_date") eqn:Hend; [|reflexivity].
  destruct (proj1 He) as (e & Habs & _); [by eexists | discriminate Habs].
Defined.

(** C8: whatever the mode, the request carries [api_key] and [thumbs] with
    the values of the call; a call that leaves them out sends the defaults
    of the signature, the environment's key (or ["DEMO_KEY"]) and [False]. *)
Theorem params_always_api_key_and_thumbs (o : QueryOptions) :
  params o !! "api_key" = Some (PyStr (api_key o)) ∧
  params o !! "thumbs" = Some (PyBool (thumbs o)) ∧
  ∀ getenv i,
    o = bind_arguments getenv i →
    params o !! "api_key" =
      Some (PyStr (default (NASA_API_KEY getenv) (in_api_key i))) ∧
    params o !! "thumbs" = Some (PyBool (default false (in_thumbs i))).
Proof.
  split; [apply params_api_key|]. split; [apply params_thumbs|].
  intros getenv i ->. by rewrite params_api_key, params_thumbs.
Qed.

Lemma params_always_api_key_and_thumbs_witness :
  params (bind_arguments None default_call) !! "api_key"
    = Some (PyStr "DEMO_KEY") ∧
  params (bind_arguments None default_call) !! "thumbs"
    = Some (PyBool false).
Proof.
  exact (proj2 (proj2 (params_always_api_key_and_thumbs
                         (bind_arguments None default_call)))
           None default_call eq_refl).
Defined.

(** ** The loop and its body *)

Lemma NASAAPOD_of_item_dict (m : gmap string pyval) :
  NASAAPOD_of_item (PyDict m) =
  Returned
    {| apod_title := default (PyStr "Untitled") (m !! "title");
       explanation := default (PyStr "") (m !! "explanation");
       date := default (PyStr "") (m !! "date");
       multimedia_link := default (PyStr "") (m !! "url");
       hd_multimedia_link :=
         if py_eq_str (default PyNone (m !! "media_type")) "image"
         then default PyNone (m !! "hdurl") else PyNone;
       video_thumbnail_url :=
         if py_eq_str (default PyNone (m !! "media_type")) "video"
         then default PyNone (m !! "thumbnail_url") else PyNone;
       copyright_person_name := default PyNone (m !! "copyright") |}.
Proof.
  unfold NASAAPOD_of_item. simpl.
  by do 2 case_match.
Qed.

(** An item that is not a dictionary has no [get]: the body raises at its
    first line. *)
Lemma NASAAPOD_of_item_not_dict (item : pyval) :
  (∀ m, item ≠ PyDict m) →
  NASAAPOD_of_item item = Raised (AttributeError (type_name item) "get").
Proof. intros Hnd. destruct item; try done. by destruct (Hnd m). Qed.

Lemma NASAAPOD_of_item_Returned (item : pyval) (a : NASAAPOD) :
  NASAAPOD_of_item item = Returned a → ∃ m, item = PyDict m.
Proof. destruct item; try done. eauto. Qed.

Lemma py_eq_str_true (v : pyval) (s : string) :
  py_eq_str v s = true ↔ v = PyStr s.
Proof.
  destruct v; simpl; try rewrite String.eqb_eq; naive_solver.
Qed.

Lemma default_PyNone_ne (x : option pyval) (v : pyval) :
  default PyNone x = v → v ≠ PyNone → x = Some v.
Proof. destruct x; naive_solver. Qed.

(** The loop appends the entries of the items, in order, to what it was
    given; it returns exactly when every item maps. *)
Lemma for_items_Returned (items : list pyval) (acc r : list NASAAPOD) :
  for_items items acc = Returned r ↔
  ∃ es, Forall2 (λ item e, NASAAPOD_of_item item = Returned e) items es ∧
        r = acc ++ es.
Proof.
  revert acc. induction items as [|item items IH]; intros acc; simpl.
  - split.
    + intros [= <-]. exists []. by rewrite app_nil_r.
    + intros (es & Hes & ->). apply Forall2_nil_inv_l in Hes as ->.
      by rewrite app_nil_r.
  - destruct (NASAAPOD_of_item item) as [e|x] eqn:He; simpl.
    + rewrite IH. split.
      * intros (es & Hes & ->). exists (e :: es).
        split; [by constructor|]. by rewrite <- app_assoc.
      * intros (es & Hes & ->).
        apply Forall2_cons_inv_l in Hes as (e' & es' & He' & Hes' & ->).
        assert (e' = e) as -> by congruence.
        exists es'. split; [done|]. by rewrite <- app_assoc.
    + split; [done|].
      intros (es & Hes & _).
      apply Forall2_cons_inv_l in Hes as (e' & es' & He' & _).
      congruence.
Qed.

Lemma for_items_dicts (ms : list (gmap string pyval)) (acc : list NASAAPOD) :
  ∃ es, for_items (PyDict <$> ms) acc = Returned (acc ++ es) ∧
        Forall2 (λ m e, NASAAPOD_of_item (PyDict m) = Returned e) ms es.
Proof.
  revert acc. induction ms as [|m ms IH]; intros acc.
  - exists []. by rewrite app_nil_r.
  - rewrite fmap_cons. cbn [for_items].
    rewrite NASAAPOD_of_item_dict. cbn [mbind outcome_bind].
    match goal with
    | |- context [for_items _ (acc ++ [?e])] =>
        destruct (IH (acc ++ [e])) as (es & -> & Hes); exists (e :: es)
    end.
    rewrite <- app_assoc. split; [done|].
    constructor; [apply NASAAPOD_of_item_dict | done].
Qed.

(** The first item that is not a dictionary makes the loop raise. *)
Lemma for_items_raises (ms : list (gmap string pyval)) (bad : pyval)
    (rest : list pyval) (acc : list NASAAPOD) :
  (∀ m, bad ≠ PyDict m) →
  for_items ((PyDict <$> ms) ++ bad :: rest) acc =
  Raised (AttributeError (type_name bad) "get").
Proof.
  intros Hbad. revert acc. induction ms as [|m ms IH]; intros acc.
  - simpl. by rewrite NASAAPOD_of_item_not_dict.
  - rewrite fmap_cons. cbn [app for_items].
    rewrite NASAAPOD_of_item_dict. apply IH.
Qed.

(** ** [get_nasa_apod], path by path *)

Section paths.
Variable requests_get : Request → outcome Response.
Variable o : QueryOptions.

Lemma get_nasa_apod_get_raises (e : exn) :
  requests_get (request o) = Raised e →
  get_nasa_apod requests_get o = Returned (inr (failure_details e)).
Proof. intros Hget. unfold get_nasa_apod. by rewrite Hget. Qed.

Lemma get_nasa_apod_json_raises (resp : Response) (e : exn) :
  requests_get (request o) = Returned resp →
  resp_json resp = Raised e →
  get_nasa_apod requests_get o = Returned (inr (failure_details e)).
Proof.
  intros Hget Hjson. unfold get_nasa_apod. rewrite Hget. simpl.
  by rewrite Hjson.
Qed.

Lemma get_nasa_apod_not_ok (resp : Response) (body : pyval) :
  requests_get (request o) = Returned resp →
  resp_json resp = Returned body →
  resp_status_code resp ≠ HTTPStatus.OK →
  get_nasa_apod requests_get o =
    (msg ← py_get body "msg" PyNone;
     error_msg ← (if truthy msg then mret msg
                  else
                    err ← py_get body "error" (PyDict ∅);
                    py_get err "message" (PyStr "Unknown error"));
     mret (inr {| status_code := IntStatus (resp_status_code resp);
                  message := error_msg |})).
Proof.
  intros Hget Hjson Hst. unfold get_nasa_apod. rewrite Hget. simpl.
  rewrite Hjson. simpl. by rewrite bool_decide_eq_true_2.
Qed.

Lemma get_nasa_apod_ok (resp : Response) (body : pyval) :
  requests_get (request o) = Returned resp →
  resp_json resp = Returned body →
  resp_status_code resp = HTTPStatus.OK →
  get_nasa_apod requests_get o =
    (nasa_apods ← for_items (raw_data_list body) [];
     mret (inl {| nasa_apods := nasa_apods |})).
Proof.
  intros Hget Hjson Hst. unfold get_nasa_apod. rewrite Hget. simpl.
  rewrite Hjson. simpl. rewrite bool_decide_eq_false_2; [done|].
  intros Hne. by apply Hne.
Qed.

(** A returned batch comes from a parsed body with status 200, entry by
    entry from the items of [raw_data_list]. *)
Lemma get_nasa_apod_batch (resp : Response) (body : pyval)
    (r : NASAAPODResponse) :
  requests_get (request o) = Returned resp →
  resp_json resp = Returned body →
  get_nasa_apod requests_get o = Returned (inl r) →
  resp_status_code resp = HTTPStatus.OK ∧
  Forall2 (λ item e, NASAAPOD_of_item item = Returned e)
    (raw_data_list body) (nasa_apods r).
Proof.
  intros Hget Hjson Hres.
  destruct (decide (resp_status_code resp = HTTPStatus.OK)) as [Hst|Hst].
  - split; [done|].
    rewrite (get_nasa_apod_ok _ _ Hget Hjson Hst) in Hres.
    destruct (for_items _ _) as [es|] eqn:Hloop; [|done].
    apply for_items_Returned in Hloop as (es' & Hes & ->).
    by injection Hres as <-.
  - rewrite (get_nasa_apod_not_ok _ _ Hget Hjson Hst) in Hres.
    destruct (py_get body "msg" PyNone) as [msg|]; [simpl in Hres|done].
    destruct (truthy msg); simpl in Hres; [done|].
    destruct (py_get body "error" _) as [err|]; [simpl in Hres|done].
    by destruct (py_get err "message" _).
Qed.
End paths.

Example image_item_entry :
  NASAAPOD_of_item (PyDict image_item) = Returned image_entry.
Proof. vm_compute. reflexivity. Qed.

Example video_item_entry :
  NASAAPOD_of_item (PyDict video_item) =
  Returned {| apod_title := PyStr "X"; explanation := PyStr "";
              date := PyStr "2026-01-18"; multimedia_link := PyStr "http://u";
              hd_multimedia_link := PyNone;
              video_thumbnail_url := PyStr "http://t";
              copyright_person_name := PyNone |}.
Proof. vm_compute. reflexivity. Qed.

Example rate_limited_429 :
  get_nasa_apod (answers 429 (PyDict rate_limited_body)) start_date_only =
  Returned (inr {| status_code := IntStatus 429;
                   message := PyStr "rate limited" |}).
Proof. vm_compute. reflexivity. Qed.

(** ** Entries of a returned batch *)

(** Entry [i] of a returned batch is the mapping of item [i] of the body,
    and that item is a dictionary. *)
Lemma get_nasa_apod_entry (requests_get : Request → outcome Response)
    (o : QueryOptions) (resp : Response) (body : pyval)
    (r : NASAAPODResponse) (i : nat) (a : NASAAPOD) :
  requests_get (request o) = Returned resp →
  resp_json resp = Returned body →
  get_nasa_apod requests_get o = Returned (inl r) →
  nasa_apods r !! i = Some a →
  ∃ m, raw_data_list body !! i = Some (PyDict m) ∧
       NASAAPOD_of_item (PyDict m) = Returned a.
Proof.
  intros Hget Hjson Hres Hi.
  destruct (get_nasa_apod_batch _ _ _ _ _ Hget Hjson Hres) as [_ Hall].
  destruct (Forall2_lookup_r _ _ _ _ _ Hall Hi) as (item & Hitem & Ha).
  destruct (NASAAPOD_of_item_Returned _ _ Ha) as [m ->]. eauto.
Qed.

(** C4: on every entry of a returned batch, [hd_multimedia_link] is not
    [None] only when the item's [media_type] is ["image"] and the item has
    an [hdurl] field (whose value it then is); [video_thumbnail_url] is not
    [None] only when [media_type] is ["video"] and the item has a
    [thumbnail_url] field; and the two are never both other than [None]. *)
Theorem hd_link_and_thumbnail_exclusive
    (requests_get : Request → outcome Response) (o : QueryOptions)
    (resp : Response) (body : pyval) (r : NASAAPODResponse)
    (i : nat) (a : NASAAPOD) :
  requests_get (request o) = Returned resp →
  resp_json resp = Returned body →
  get_nasa_apod requests_get o = Returned (inl r) →
  nasa_apods r !! i = Some a →
  ∃ item : gmap string pyval,
    raw_data_list body !! i = Some (PyDict item) ∧
    (hd_multimedia_link a ≠ PyNone →
       item !! "media_type" = Some (PyStr "image") ∧
       item !! "hdurl" = Some (hd_multimedia_link a)) ∧
    (video_thumbnail_url a ≠ PyNone →
       item !! "media_type" = Some (PyStr "video") ∧
       item !! "thumbnail_url" = Some (video_thumbnail_url a)) ∧
    ¬ (hd_multimedia_link a ≠ PyNone ∧ video_thumbnail_url a ≠ PyNone).
Proof.
  intros Hget Hjson Hres Hi.
  destruct (get_nasa_apod_entry _ _ _ _ _ _ _ Hget Hjson Hres Hi)
    as (item & Hitem & Ha).
  exists item. split; [done|].
  rewrite NASAAPOD_of_item_dict in Ha. injection Ha as <-. simpl.
  destruct (py_eq_str _ "image") eqn:Himg;
    destruct (py_eq_str _ "video") eqn:Hvid;
    try apply py_eq_str_true in Himg; try apply py_eq_str_true in Hvid.
  - congruence.
  - split; [|split; [done|tauto]].
    intros Hhd. split; apply default_PyNone_ne; done.
  - split; [done|]. split; [|tauto].
    intros Hth. split; apply default_PyNone_ne; done.
  - split; [done|]. split; [done|tauto].
Qed.

Lemma hd_link_and_thumbnail_exclusive_witness :
  ∃ item : gmap string pyval,
    raw_data_list (PyDict image_item) !! 0%nat = Some (PyDict item) ∧
    (PyStr "http://h" ≠ PyNone →
       item !! "media_type" = Some (PyStr "image") ∧
       item !! "hdurl" = Some (PyStr "http://h")) ∧
    (PyNone ≠ PyNone →
       item !! "media_type" = Some (PyStr "video") ∧
       item !! "thumbnail_url" = Some PyNone) ∧
    ¬ (PyStr "http://h" ≠ PyNone ∧ PyNone ≠ PyNone).
Proof.
  apply (hd_link_and_thumbnail_exclusive
           (answers 200 (PyDict image_item)) start_date_only
           {| resp_status_code := 200;
              resp_json := Returned (PyDict image_item) |}
           (PyDict image_item) {| nasa_apods := [image_entry] |}
           0%nat image_entry).
  - reflexivity.
  - reflexivity.
  - vm_compute. reflexivity.
  - reflexivity.
Defined.

(** C9: on every entry of a returned batch, [apod_title] is the item's
    [title] field, or ["Untitled"] if the item has none; [explanation],
    [date] and [multimedia_link] are the item's [explanation], [date] and
    [url] fields, or the empty string; [copyright_person_name] is the
    item's [copyright] field, or [None]. *)
Theorem entry_field_defaults
    (requests_get : Request → outcome Response) (o : QueryOptions)
    (resp : Response) (body : pyval) (r : NASAAPODResponse)
    (i : nat) (a : NASAAPOD) :
  requests_get (request o) = Returned resp →
  resp_json resp = Returned body →
  get_nasa_apod requests_get o = Returned (inl r) →
  nasa_apods r !! i = Some a →
  ∃ item : gmap string pyval,
    raw_data_list body !! i = Some (PyDict item) ∧
    apod_title a = default (PyStr "Untitled") (item !! "title") ∧
    explanation a = default (PyStr "") (item !! "explanation") ∧
    date a = default (PyStr "") (item !! "date") ∧
    multimedia_link a = default (PyStr "") (item !! "url") ∧
    copyright_person_name a = default PyNone (item !! "copyright").
Proof.
  intros Hget Hjson Hres Hi.
  destruct (get_nasa_apod_entry _ _ _ _ _ _ _ Hget Hjson Hres Hi)
    as (item & Hitem & Ha).
  exists item. split; [done|].
  rewrite NASAAPOD_of_item_dict in Ha. by injection Ha as <-.
Qed.

Lemma entry_field_defaults_witness :
  ∃ item : gmap string pyval,
    raw_data_list (PyList [PyDict image_item; PyDict bare_item]) !! 1%nat
      = Some (PyDict item) ∧
    PyStr "Untitled" = default (PyStr "Untitled") (item !! "title") ∧
    PyStr "" = default (PyStr "") (item !! "explanation") ∧
    PyStr "" = default (PyStr "") (item !! "date") ∧
    PyStr "" = default (PyStr "") (item !! "url") ∧
    PyNone = default PyNone (item !! "copyright").
Proof.
  apply (entry_field_defaults
           (answers 200 (PyList [PyDict image_item; PyDict bare_item]))
           start_date_only
           {| resp_status_code := 200;
              resp_json :=
                Returned (PyList [PyDict image_item; PyDict bare_item]) |}
           (PyList [PyDict image_item; PyDict bare_item])
           {| nasa_apods := [image_entry; bare_entry] |}
           1%nat bare_entry).
  - reflexivity.
  - reflexivity.
  - vm_compute. reflexivity.
  - reflexivity.
Defined.

(** ** Normalisation of the body *)

(** C5: on a 200 OK answer, an array of N objects gives a batch of exactly
    N entries, entry [i] being the mapping of element [i] of the array; a
    single object gives a batch of exactly one entry, its mapping. *)
Theorem get_nasa_apod_normalizes_body
    (requests_get : Request → outcome Response) (o : QueryOptions)
    (resp : Response) :
  requests_get (request o) = Returned resp →
  resp_status_code resp = HTTPStatus.OK →
  (∀ objs : list (gmap string pyval),
     resp_json resp = Returned (PyList (PyDict <$> objs)) →
     ∃ r, get_nasa_apod requests_get o = Returned (inl r) ∧
          length (nasa_apods r) = length objs ∧
          ∀ i obj, objs !! i = Some obj →
            ∃ a, nasa_apods r !! i = Some a ∧
                 NASAAPOD_of_item (PyDict obj) = Returned a) ∧
  (∀ obj : gmap string pyval,
     resp_json resp = Returned (PyDict obj) →
     ∃ a, get_nasa_apod requests_get o
            = Returned (inl {| nasa_apods := [a] |}) ∧
          NASAAPOD_of_item (PyDict obj) = Returned a).
Proof.
  intros Hget Hst. split.
  - intros objs Hjson.
    rewrite (get_nasa_apod_ok _ _ _ _ Hget Hjson Hst). simpl.
    destruct (for_items_dicts objs []) as (es & -> & Hes). simpl.
    eexists. split; [done|]. simpl. split.
    + symmetry. by eapply Forall2_length.
    + intros i obj Hi.
      destruct (Forall2_lookup_l _ _ _ _ _ Hes Hi) as (a & Ha & Hmap).
      eauto.
  - intros obj Hjson.
    rewrite (get_nasa_apod_ok _ _ _ _ Hget Hjson Hst). simpl.
    rewrite NASAAPOD_of_item_dict. simpl. eauto.
Qed.

Lemma get_nasa_apod_normalizes_body_witness :
  ∃ r, get_nasa_apod
         (answers 200 (PyList (PyDict <$> [video_item; image_item; bare_item])))
         count_and_all_dates = Returned (inl r) ∧
       length (nasa_apods r) = 3%nat ∧
       ∀ i obj, [video_item; image_item; bare_item] !! i = Some obj →
         ∃ a, nasa_apods r !! i = Some a ∧
              NASAAPOD_of_item (PyDict obj) = Returned a.
Proof.
  apply (proj1 (get_nasa_apod_normalizes_body
                  (answers 200
                     (PyList (PyDict <$> [video_item; image_item; bare_item])))
                  count_and_all_dates
                  {| resp_status_code := 200;
                     resp_json :=
                       Returned
                         (PyList
                            (PyDict <$> [video_item; image_item; bare_item]))
                  |} eq_refl eq_refl)
           [video_item; image_item; bare_item] eq_refl).
Defined.

(** ** Transport and parse failures *)

Lemma string_app_empty_r (s : string) : s +:+ "" = s.
Proof.
  induction s as [|c s IH]; [done|].
  change (String c (s +:+ "") = String c s). by rewrite IH.
Qed.

(** C6: when [requests.get] raises, or [.json()] raises on the body (an
    instance of [Exception], as network failures, timeouts and parse errors
    are), the result is an [ErrorDetails] whose status is the internal-error
    sentinel and whose message contains the description of the exception. *)
Theorem get_nasa_apod_transport_failure
    (requests_get : Request → outcome Response) (o : QueryOptions) (e : exn) :
  requests_get (request o) = Raised e ∨
  (∃ resp, requests_get (request o) = Returned resp ∧
           resp_json resp = Raised e) →
  ∃ msg,
    get_nasa_apod requests_get o =
      Returned (inr {| status_code :=
                         EnumStatus HTTPStatus.INTERNAL_SERVER_ERROR;
                       message := PyStr msg |}) ∧
    msg = "Failed to connect or parse JSON: " +:+ str_exn e ∧
    str_contains msg (str_exn e).
Proof.
  intros Hfail. eexists. split; [|split; [done|]].
  - destruct Hfail as [Hget|(resp & Hget & Hjson)].
    + by apply get_nasa_apod_get_raises.
    + by eapply get_nasa_apod_json_raises.
  - exists "Failed to connect or parse JSON: ", "".
    by rewrite string_app_empty_r.
Qed.

Lemma get_nasa_apod_transport_failure_witness :
  ∃ msg,
    get_nasa_apod (λ _, Raised (RequestException "Read timed out."))
      start_date_only =
      Returned (inr {| status_code :=
                         EnumStatus HTTPStatus.INTERNAL_SERVER_ERROR;
                       message := PyStr msg |}) ∧
    msg = "Failed to connect or parse JSON: Read timed out." ∧
    str_contains msg "Read timed out.".
Proof.
  apply (get_nasa_apod_transport_failure
           (λ _, Raised (RequestException "Read timed out."))
           start_date_only (RequestException "Read timed out.")).
  left. reflexivity.
Defined.

(** ** Upstream rejections *)




(** ** The sentinel status *)

(** C10, as the claim words it, fails: an upstream answer with status 500
    is still told apart from a transport failure.  With the very message of
    the failure as its [msg], the answer gives a [status_code] that is the
    plain [int] 500, while the failure gives the member
    [HTTPStatus.INTERNAL_SERVER_ERROR]. *)
Lemma upstream_500_is_told_apart_from_failure :
  get_nasa_apod
    (answers 500
       (PyDict {["msg" := PyStr "Failed to connect or parse JSON: timed out"]}))
    start_date_only =
    Returned (inr {| status_code := IntStatus 500;
                     message :=
                       PyStr "Failed to connect or parse JSON: timed out" |}) ∧
  get_nasa_apod (λ _, Raised (RequestException "timed out")) start_date_only =
    Returned (inr {| status_code :=
                       EnumStatus HTTPStatus.INTERNAL_SERVER_ERROR;
                     message :=
                       PyStr "Failed to connect or parse JSON: timed out" |}) ∧
  IntStatus 500 ≠ EnumStatus HTTPStatus.INTERNAL_SERVER_ERROR.
Proof.
  split; [vm_compute; reflexivity|]. split; [reflexivity|discriminate].
Qed.

(** C10 (amended): every transport or parse failure is reported with the
    member [HTTPStatus.INTERNAL_SERVER_ERROR], whose integer is exactly
    500; an upstream status is reported as the plain integer the server
    sent.  Compared as integers ([==]), an upstream status other than 500
    never equals the sentinel, while an upstream status of 500 does, and
    with a suitable [msg] the message is the same too: by the number alone
    a caller tells the two apart only when upstream does not answer 500.
    The values stored still differ (member against plain integer). *)
Theorem internal_error_sentinel_is_500 :
  HTTPStatus.value HTTPStatus.INTERNAL_SERVER_ERROR = 500 ∧
  (∀ (requests_get : Request → outcome Response) o (e : exn),
     requests_get (request o) = Raised e ∨
     (∃ resp, requests_get (request o) = Returned resp ∧
              resp_json resp = Raised e) →
     ∃ msg, get_nasa_apod requests_get o =
              Returned (inr {| status_code :=
                                 EnumStatus HTTPStatus.INTERNAL_SERVER_ERROR;
                               message := msg |})) ∧
  (∀ (requests_get : Request → outcome Response) o resp body d,
     requests_get (request o) = Returned resp →
     resp_json resp = Returned body →
     get_nasa_apod requests_get o = Returned (inr d) →
     status_code d = IntStatus (resp_status_code resp) ∧
     (resp_status_code resp ≠ 500 →
      status_eqb (status_code d)
        (EnumStatus HTTPStatus.INTERNAL_SERVER_ERROR) = false)) ∧
  (∀ o (e : exn),
     ∃ upstream failure,
       get_nasa_apod
         (answers 500
            (PyDict {["msg" := PyStr ("Failed to connect or parse JSON: "
                                      +:+ str_exn e)]})) o =
         Returned (inr upstream) ∧
       get_nasa_apod (λ _, Raised e) o = Returned (inr failure) ∧
       status_eqb (status_code upstream) (status_code failure) = true ∧
       message upstream = message failure ∧
       status_code upstream ≠ status_code failure).
Proof.
  split; [reflexivity|]. split; [|split].
  - intros requests_get o e [Hget|(resp & Hget & Hjson)]; eexists.
    + by apply get_nasa_apod_get_raises.
    + by eapply get_nasa_apod_json_raises.
  - intros requests_get o resp body d Hget Hjson Hres.
    assert (status_code d = IntStatus (resp_status_code resp)) as Hd.
    { destruct (decide (resp_status_code resp = HTTPStatus.OK)) as [Hok|Hok].
      - rewrite (get_nasa_apod_ok _ _ _ _ Hget Hjson Hok) in Hres.
        by destruct (for_items _ _).
      - rewrite (get_nasa_apod_not_ok _ _ _ _ Hget Hjson Hok) in Hres.
        destruct (py_get body "msg" PyNone) as [msg|]; [simpl in Hres|done].
        destruct (truthy msg); simpl in Hres.
        { by injection Hres as <-. }
        destruct (py_get body "error" _) as [err|]; [simpl in Hres|done].
        destruct (py_get err "message" _); [simpl in Hres|done].
        by injection Hres as <-. }
    split; [done|].
    intros Hst. rewrite Hd. unfold status_eqb. simpl.
    by apply Z.eqb_neq.
  - intros o e. eexists _, _. split; [|split; [|split; [|split]]].
    + erewrite get_nasa_apod_not_ok; [|reflexivity|reflexivity|done].
      simpl. rewrite lookup_singleton_eq. reflexivity.
    + exact (get_nasa_apod_get_raises (λ _, Raised e) o e eq_refl).
    + reflexivity.
    + reflexivity.
    + discriminate.
Qed.

Lemma internal_error_sentinel_is_500_witness :
  (∃ msg, get_nasa_apod
            (λ _, Returned {| resp_status_code := 200;
                              resp_json := Raised (JSONDecodeError
                                "Expecting value: line 1 column 1 (char 0)") |})
            start_date_only =
          Returned (inr {| status_code :=
                             EnumStatus HTTPStatus.INTERNAL_SERVER_ERROR;
                           message := msg |})) ∧
  status_eqb (IntStatus 429)
    (EnumStatus HTTPStatus.INTERNAL_SERVER_ERROR) = false.
Proof.
  destruct internal_error_sentinel_is_500 as (_ & Hfail & Hother & _).
  split.
  - apply (Hfail _ start_date_only
             (JSONDecodeError "Expecting value: line 1 column 1 (char 0)")).
    right. eexists. split; reflexivity.
  - apply (Hother (answers 429 (PyDict rate_limited_body)) start_date_only
             {| resp_status_code := 429;
                resp_json := Returned (PyDict rate_limited_body) |}
             (PyDict rate_limited_body)
             {| status_code := IntStatus 429;
                message := PyStr "rate limited" |}).
    + reflexivity.
    + reflexivity.
    + vm_compute. reflexivity.
    + discriminate.
Defined.

(** ** Bodies that are not objects *)

(** Outside the [try], nothing catches what [.get] raises.  With a status
    other than 200 a body that is not a dictionary raises at
    [json_response.get("msg")]. *)
Lemma get_nasa_apod_not_ok_raises
    (requests_get : Request → outcome Response) (o : QueryOptions)
    (resp : Response) (body : pyval) :
  requests_get (request o) = Returned resp →
  resp_json resp = Returned body →
  resp_status_code resp ≠ HTTPStatus.OK →
  (∀ m, body ≠ PyDict m) →
  get_nasa_apod requests_get o =
    Raised (AttributeError (type_name body) "get").
Proof.
  intros Hget Hjson Hst Hnd.
  rewrite (get_nasa_apod_not_ok _ _ _ _ Hget Hjson Hst).
  destruct body; try done. by destruct (Hnd m).
Qed.

(** With status 200, the first array element that is not a dictionary
    raises at [item.get("media_type")]; the entries mapped before it are
    lost. *)
Lemma get_nasa_apod_ok_raises
    (requests_get : Request → outcome Response) (o : QueryOptions)
    (resp : Response) (objs : list (gmap string pyval)) (bad : pyval)
    (rest : list pyval) :
  requests_get (request o) = Returned resp →
  resp_json resp = Returned (PyList ((PyDict <$> objs) ++ bad :: rest)) →
  resp_status_code resp = HTTPStatus.OK →
  (∀ m, bad ≠ PyDict m) →
  get_nasa_apod requests_get o =
    Raised (AttributeError (type_name bad) "get").
Proof.
  intros Hget Hjson Hst Hnd.
  rewrite (get_nasa_apod_ok _ _ _ _ Hget Hjson Hst). simpl.
  by rewrite for_items_raises.
Qed.

(** C2 does not hold of the code: for each of these answers the call ends
    in an [AttributeError] instead of returning a value.
    - 200 with body [[1]];
    - 200 with body ["ok"];
    - 404 with body [[]];
    - 403 with body [{"error":"API_KEY_INVALID"}]. *)
Theorem get_nasa_apod_raises_AttributeError (o : QueryOptions) :
  get_nasa_apod (answers 200 (PyList [PyInt 1])) o =
    Raised (AttributeError "int" "get") ∧
  get_nasa_apod (answers 200 (PyStr "ok")) o =
    Raised (AttributeError "str" "get") ∧
  get_nasa_apod (answers 404 (PyList [])) o =
    Raised (AttributeError "list" "get") ∧
  get_nasa_apod
    (answers 403 (PyDict {["error" := PyStr "API_KEY_INVALID"]})) o =
    Raised (AttributeError "str" "get").
Proof.
  split; [|split; [|split]].
  - by rewrite (get_nasa_apod_ok_raises (answers 200 (PyList [PyInt 1])) o
                  {| resp_status_code := 200;
                     resp_json := Returned (PyList [PyInt 1]) |}
                  [] (PyInt 1) [] eq_refl eq_refl eq_refl).
  - erewrite get_nasa_apod_ok; [|reflexivity|reflexivity|reflexivity].
    reflexivity.
  - apply (get_nasa_apod_not_ok_raises _ o
             {| resp_status_code := 404; resp_json := Returned (PyList []) |}
             (PyList [])); done.
  - erewrite get_nasa_apod_not_ok; [|reflexivity|reflexivity|done].
    simpl. rewrite lookup_singleton_ne by discriminate. simpl.
    by rewrite lookup_singleton_eq.
Qed.

(** * Further properties of the code *)

(** ** The default key (line 43) *)

(** X1: the default API key is never the empty string: it is the value of
    the environment variable when that is set and not empty, and
    ["DEMO_KEY"] when the variable is unset or set to the empty string. *)
Theorem NASA_API_KEY_never_empty (getenv : option string) :
  NASA_API_KEY getenv ≠ "" ∧
  (∀ s, getenv = Some s → s ≠ "" → NASA_API_KEY getenv = s) ∧
  (getenv = None ∨ getenv = Some "" → NASA_API_KEY getenv = "DEMO_KEY").
Proof.
  unfold NASA_API_KEY, py_or. split; [|split].
  - destruct getenv as [s|]; simpl; [|done].
    destruct (String.eqb s "") eqn:Hs; simpl; [done|].
    by apply String.eqb_neq.
  - intros s -> Hs. simpl.
    apply String.eqb_neq in Hs. by rewrite Hs.
  - by intros [->| ->].
Qed.

Lemma NASA_API_KEY_never_empty_witness :
  NASA_API_KEY (Some "k3y") = "k3y" ∧ NASA_API_KEY (Some "") = "DEMO_KEY".
Proof.
  split.
  - apply (proj1 (proj2 (NASA_API_KEY_never_empty (Some "k3y"))) "k3y").
    + reflexivity.
    + discriminate.
  - apply (proj2 (proj2 (NASA_API_KEY_never_empty (Some "")))).
    right. reflexivity.
Defined.

(** ** The request, as a whole *)

(** X2: the request never carries a parameter other than [api_key],
    [thumbs], [count], [date], [start_date] and [end_date], and it carries
    at least two and at most four of them. *)
Theorem params_keys_bounded (o : QueryOptions) :
  dom (params o) ⊆
    ({["api_key"; "thumbs"; "count"; "date"; "start_date"; "end_date"]}
       : gset string) ∧
  (2 ≤ size (params o) ≤ 4)%nat.
Proof.
  split; [apply params_dom|].
  unfold params.
  destruct (truthy (of_opt_int (count o))),
    (truthy (of_opt_str (apod_date o))),
    (truthy (of_opt_str (start_date o))),
    (truthy (of_opt_str (end_date o)));
    repeat (rewrite map_size_insert_None;
            [|repeat (rewrite lookup_insert_ne by discriminate);
              by rewrite lookup_singleton_ne by discriminate]);
    rewrite map_size_singleton; lia.
Qed.

(** X3: arguments of a lower mode are ignored when the request is built:
    two calls that agree on [api_key], [thumbs] and the arguments of the
    mode taken send the same request.  With a nonzero [count] the three
    date arguments play no role; with no (or zero) count and a non-empty
    [apod_date] the range arguments play no role; and with no count, no
    date and no (or an empty) [start_date], [end_date] plays no role. *)
Theorem request_ignores_lower_modes (o o' : QueryOptions) :
  api_key o = api_key o' → thumbs o = thumbs o' →
  (truthy (of_opt_int (count o)) = true ∧ count o = count o') ∨
  (truthy (of_opt_int (count o)) = false ∧
   truthy (of_opt_int (count o')) = false ∧
   truthy (of_opt_str (apod_date o)) = true ∧ apod_date o = apod_date o') ∨
  (truthy (of_opt_int (count o)) = false ∧
   truthy (of_opt_int (count o')) = false ∧
   truthy (of_opt_str (apod_date o)) = false ∧
   truthy (of_opt_str (apod_date o')) = false ∧
   truthy (of_opt_str (start_date o)) = false ∧
   truthy (of_opt_str (start_date o')) = false) →
  request o = request o'.
Proof.
  intros Hkey Hthumbs Hmode.
  assert (params o = params o') as Hparams.
  { unfold params. rewrite <- Hkey, <- Hthumbs.
    destruct Hmode as [[Hc Hcc]|[(Hc & Hc' & Hd & Hdd)|
                                 (Hc & Hc' & Hd & Hd' & Hs & Hs')]].
    - by rewrite <- Hcc, Hc.
    - by rewrite Hc, Hc', <- Hdd, Hd.
    - by rewrite Hc, Hc', Hd, Hd', Hs, Hs'. }
  unfold request. by rewrite Hparams.
Qed.

Lemma request_ignores_lower_modes_witness :
  request count_and_all_dates =
    request {| api_key := "DEMO_KEY"; apod_date := None; start_date := None;
               end_date := None; count := Some 5; thumbs := true |}.
Proof.
  apply (request_ignores_lower_modes count_and_all_dates
           {| api_key := "DEMO_KEY"; apod_date := None; start_date := None;
              end_date := None; count := Some 5; thumbs := true |}).
  - reflexivity.
  - reflexivity.
  - left. split; reflexivity.
Defined.

(** ** Which answers raise, which return *)

Lemma is_dict_true (v : pyval) : is_dict v = true ↔ ∃ m, v = PyDict m.
Proof. destruct v; naive_solver. Qed.

Lemma is_dict_false (v : pyval) : is_dict v = false ↔ ∀ m, v ≠ PyDict m.
Proof. destruct v; naive_solver. Qed.

Lemma py_get_not_dict (v : pyval) (key : string) (dflt : pyval) :
  is_dict v = false →
  py_get v key dflt = Raised (AttributeError (type_name v) "get").
Proof. by destruct v. Qed.

(** The loop returns exactly when every item is a dictionary. *)
Lemma for_items_returns_iff (items : list pyval) (acc : list NASAAPOD) :
  (∃ r, for_items items acc = Returned r) ↔
  Forall (λ v, is_dict v = true) items.
Proof.
  revert acc. induction items as [|item items IH]; intros acc; simpl.
  - split; [by constructor|by eexists].
  - rewrite Forall_cons. destruct (is_dict item) eqn:Hd.
    + apply is_dict_true in Hd as [m ->].
      rewrite NASAAPOD_of_item_dict. simpl. rewrite IH. tauto.
    + rewrite (NASAAPOD_of_item_not_dict _ (proj1 (is_dict_false _) Hd)).
      simpl.
      split; [by intros [? ?]|by intros [? _]].
Qed.

(** When the loop raises, an item that is not a dictionary raised it. *)
Lemma for_items_Raised (items : list pyval) (acc : list NASAAPOD)
    (b : base_exn) :
  for_items items acc = Raised b →
  ∃ v, v ∈ items ∧ is_dict v = false ∧
       b = Exception (AttributeError (type_name v) "get").
Proof.
  revert acc. induction items as [|item items IH]; intros acc; simpl.
  - done.
  - destruct (is_dict item) eqn:Hd.
    + apply is_dict_true in Hd as [m ->].
      rewrite NASAAPOD_of_item_dict. simpl. intros Hloop.
      destruct (IH _ Hloop) as (v & Hv & Hvd & ->).
      exists v. split; [by apply list_elem_of_further|done].
    + rewrite (NASAAPOD_of_item_not_dict _ (proj1 (is_dict_false _) Hd)).
      simpl. intros [= <-].
      exists item. split; [by apply list_elem_of_here|done].
Qed.

(** What is not an instance of [Exception] passes through the [except]
    clause. *)
Lemma get_nasa_apod_not_caught
    (requests_get : Request → outcome Response) (o : QueryOptions)
    (b : base_exn) :
  is_Exception b = false →
  requests_get (request o) = Raised b ∨
  (∃ resp, requests_get (request o) = Returned resp ∧
           resp_json resp = Raised b) →
  get_nasa_apod requests_get o = Raised b.
Proof.
  intros Hb [Hget|(resp & Hget & Hjson)]; unfold get_nasa_apod;
    rewrite Hget; simpl; [|rewrite Hjson; simpl]; by destruct b.
Qed.

(** X4: what leaves [get_nasa_apod] as an exception is one of two things.
    Either [requests.get] or [.json()] raised something that is not an
    instance of [Exception] ([KeyboardInterrupt], [SystemExit]), which
    [except Exception] does not catch and which leaves the call unchanged;
    or the answer was received and parsed, and the exception is the
    [AttributeError] of a [.get] on a value that is not a dictionary: with
    status 200 an item of the body (or the body itself when it is not an
    array), otherwise the body, or the [error] field of the body.
    Conversely, whatever [requests.get] or [.json()] raises outside
    [Exception] does leave the call. *)
Theorem get_nasa_apod_Raised_inv
    (requests_get : Request → outcome Response) (o : QueryOptions)
    (b : base_exn) :
  (get_nasa_apod requests_get o = Raised b →
   (is_Exception b = false ∧
    (requests_get (request o) = Raised b ∨
     ∃ resp, requests_get (request o) = Returned resp ∧
             resp_json resp = Raised b)) ∨
   (∃ resp body v,
      requests_get (request o) = Returned resp ∧
      resp_json resp = Returned body ∧
      is_dict v = false ∧
      b = Exception (AttributeError (type_name v) "get") ∧
      if bool_decide (resp_status_code resp = HTTPStatus.OK)
      then v ∈ raw_data_list body
      else v = body ∨ ∃ m, body = PyDict m ∧ m !! "error" = Some v)) ∧
  (is_Exception b = false →
   requests_get (request o) = Raised b ∨
   (∃ resp, requests_get (request o) = Returned resp ∧
            resp_json resp = Raised b) →
   get_nasa_apod requests_get o = Raised b).
Proof.
  split; [|apply get_nasa_apod_not_caught].
  intros Hres.
  destruct (requests_get (request o)) as [resp|x] eqn:Hget.
  2:{ left. destruct x as [e| |].
      - by rewrite (get_nasa_apod_get_raises _ _ e Hget) in Hres.
      - rewrite (get_nasa_apod_not_caught _ _ KeyboardInterrupt) in Hres
          by eauto.
        injection Hres as <-. eauto.
      - rewrite (get_nasa_apod_not_caught _ _ SystemExit) in Hres by eauto.
        injection Hres as <-. eauto. }
  destruct (resp_json resp) as [body|x] eqn:Hjson.
  2:{ left. destruct x as [e| |].
      - by rewrite (get_nasa_apod_json_raises _ _ _ e Hget Hjson) in Hres.
      - rewrite (get_nasa_apod_not_caught _ _ KeyboardInterrupt) in Hres
          by eauto.
        injection Hres as <-. eauto.
      - rewrite (get_nasa_apod_not_caught _ _ SystemExit) in Hres by eauto.
        injection Hres as <-. eauto. }
  right. exists resp, body. case_bool_decide as Hst.
  - rewrite (get_nasa_apod_ok _ _ _ _ Hget Hjson Hst) in Hres.
    destruct (for_items _ _) as [r|x] eqn:Hloop; [done|].
    injection Hres as <-.
    destruct (for_items_Raised _ _ _ Hloop) as (v & Hv & Hd & ->).
    by exists v.
  - rewrite (get_nasa_apod_not_ok _ _ _ _ Hget Hjson Hst) in Hres.
    destruct (is_dict body) eqn:Hd.
    + apply is_dict_true in Hd as [m ->]. simpl in Hres.
      destruct (truthy (default PyNone (m !! "msg"))); [done|].
      simpl in Hres. destruct (m !! "error") as [err|] eqn:Herr; [|done].
      simpl in Hres. destruct (is_dict err) eqn:Hderr.
      * by apply is_dict_true in Hderr as [m' ->].
      * rewrite py_get_not_dict in Hres by done. simplify_eq/=.
        exists err. do 4 (split; [done|]). right. by exists m.
    + rewrite (py_get_not_dict body "msg") in Hres by done. simplify_eq/=.
      exists body. do 4 (split; [done|]). by left.
Qed.

Lemma get_nasa_apod_Raised_inv_witness :
  get_nasa_apod (λ _, Raised KeyboardInterrupt) start_date_only
    = Raised KeyboardInterrupt.
Proof.
  apply (proj2 (get_nasa_apod_Raised_inv (λ _, Raised KeyboardInterrupt)
                  start_date_only KeyboardInterrupt)).
  - reflexivity.
  - left. reflexivity.
Defined.

(** X5: with status 200 the call is all or nothing: it returns a batch
    exactly when every item of the body (the body itself when it is not an
    array) is a JSON object, and then the batch has one entry per item; if
    any item is not an object the call raises and the entries mapped so far
    are lost.  An [ErrorDetails] is never returned for a parsed 200
    answer. *)
Theorem get_nasa_apod_ok_all_or_nothing
    (requests_get : Request → outcome Response) (o : QueryOptions)
    (resp : Response) (body : pyval) :
  requests_get (request o) = Returned resp →
  resp_json resp = Returned body →
  resp_status_code resp = HTTPStatus.OK →
  ((∃ r, get_nasa_apod requests_get o = Returned (inl r)) ↔
     Forall (λ v, is_dict v = true) (raw_data_list body)) ∧
  (∀ r, get_nasa_apod requests_get o = Returned (inl r) →
     length (nasa_apods r) = length (raw_data_list body)) ∧
  (¬ Forall (λ v, is_dict v = true) (raw_data_list body) →
     ∃ e, get_nasa_apod requests_get o = Raised e) ∧
  (∀ d, get_nasa_apod requests_get o ≠ Returned (inr d)).
Proof.
  intros Hget Hjson Hst.
  rewrite (get_nasa_apod_ok _ _ _ _ Hget Hjson Hst).
  rewrite <- (for_items_returns_iff (raw_data_list body) []).
  destruct (for_items (raw_data_list body) []) as [es|x] eqn:Hloop; simpl.
  - split; [by split; eauto|]. split; [|split].
    + intros r [= <-]. simpl.
      apply for_items_Returned in Hloop as (es' & Hall & ->).
      symmetry. by eapply Forall2_length.
    + intros Hno. destruct Hno. eauto.
    + done.
  - split; [split; [by intros [? ?]|by intros [? ?]]|].
    split; [done|]. split; [eauto|done].
Qed.

Lemma get_nasa_apod_ok_all_or_nothing_witness :
  ∃ e, get_nasa_apod
         (answers 200 (PyList [PyDict image_item; PyNone; PyDict video_item]))
         start_date_only = Raised e.
Proof.
  destruct (get_nasa_apod_ok_all_or_nothing
              (answers 200
                 (PyList [PyDict image_item; PyNone; PyDict video_item]))
              start_date_only
              {| resp_status_code := 200;
                 resp_json :=
                   Returned
                     (PyList [PyDict image_item; PyNone; PyDict video_item])
              |}
              (PyList [PyDict image_item; PyNone; PyDict video_item])
              eq_refl eq_refl eq_refl) as (_ & _ & Hraise & _).
  apply Hraise. intros Hall.
  apply Forall_cons in Hall as [_ Hall].
  apply Forall_cons in Hall as [Hnone _]. discriminate Hnone.
Defined.

(** X6: with a status other than 200 the call returns an [ErrorDetails]
    exactly when the body is an object in which [msg] is truthy, or [error]
    is missing, or [error] is itself an object; in every other case (body
    not an object; [msg] missing or falsy and [error] a string, a number,
    null, ...) it raises.  A batch is never returned, and a returned
    [ErrorDetails] carries the status of the answer. *)
Theorem get_nasa_apod_not_ok_returns_iff
    (requests_get : Request → outcome Response) (o : QueryOptions)
    (resp : Response) (body : pyval) :
  requests_get (request o) = Returned resp →
  resp_json resp = Returned body →
  resp_status_code resp ≠ HTTPStatus.OK →
  ((∃ d, get_nasa_apod requests_get o = Returned (inr d)) ↔
     ∃ m, body = PyDict m ∧
          ((∃ msg, m !! "msg" = Some msg ∧ truthy msg = true) ∨
           m !! "error" = None ∨
           ∃ err, m !! "error" = Some (PyDict err))) ∧
  (∀ r, get_nasa_apod requests_get o ≠ Returned (inl r)) ∧
  (∀ d, get_nasa_apod requests_get o = Returned (inr d) →
     status_code d = IntStatus (resp_status_code resp)) ∧
  ((∃ d, get_nasa_apod requests_get o = Returned (inr d)) ∨
   (∃ e, get_nasa_apod requests_get o = Raised e)).
Proof.
  intros Hget Hjson Hst.
  rewrite (get_nasa_apod_not_ok _ _ _ _ Hget Hjson Hst).
  destruct (is_dict body) eqn:Hd.
  - apply is_dict_true in Hd as [m ->]. simpl.
    destruct (m !! "msg") as [msg|] eqn:Hmsg; simpl.
    + destruct (truthy msg) eqn:Ht; simpl.
      { split; [split; [|by eauto]|].
        - intros _. exists m. split; [done|]. left. eauto.
        - split; [done|]. split; [by intros d [= <-]|eauto]. }
      destruct (m !! "error") as [err|] eqn:Herr; simpl.
      * destruct (is_dict err) eqn:Hderr.
        { apply is_dict_true in Hderr as [m' ->]. simpl.
          split; [split; [|by eauto]|].
          - intros _. exists m. split; [done|]. right. right. eauto.
          - split; [done|]. split; [by intros d [= <-]|eauto]. }
        rewrite (py_get_not_dict err) by done. simpl.
        split; [split; [by intros [? ?]|]|].
        -- intros (m0 & [= <-] & [(msg' & Hm & Ht')|[Hn|(err' & He)]]).
           ++ rewrite Hmsg in Hm. injection Hm as <-. congruence.
           ++ congruence.
           ++ rewrite Herr in He. injection He as ->. discriminate Hderr.
        -- split; [done|]. split; [done|eauto].
      * split; [split; [|by eauto]|].
        -- intros _. exists m. split; [done|]. right. by left.
        -- split; [done|]. split; [by intros d [= <-]|eauto].
    + destruct (m !! "error") as [err|] eqn:Herr; simpl.
      * destruct (is_dict err) eqn:Hderr.
        { apply is_dict_true in Hderr as [m' ->]. simpl.
          split; [split; [|by eauto]|].
          - intros _. exists m. split; [done|]. right. right. eauto.
          - split; [done|]. split; [by intros d [= <-]|eauto]. }
        rewrite (py_get_not_dict err) by done. simpl.
        split; [split; [by intros [? ?]|]|].
        -- intros (m0 & [= <-] & [(msg' & Hm & Ht')|[Hn|(err' & He)]]).
           ++ congruence.
           ++ congruence.
           ++ rewrite Herr in He. injection He as ->. discriminate Hderr.
        -- split; [done|]. split; [done|eauto].
      * split; [split; [|by eauto]|].
        -- intros _. exists m. split; [done|]. right. by left.
        -- split; [done|]. split; [by intros d [= <-]|eauto].
  - rewrite (py_get_not_dict body "msg") by done. simpl.
    split; [split; [by intros [? ?]|]|].
    + intros (m & -> & _). discriminate Hd.
    + split; [done|]. split; [done|eauto].
Qed.

Lemma get_nasa_apod_not_ok_returns_iff_witness :
  ∃ d, get_nasa_apod (answers 429 (PyDict rate_limited_body)) start_date_only
       = Returned (inr d).
Proof.
  destruct (get_nasa_apod_not_ok_returns_iff
              (answers 429 (PyDict rate_limited_body)) start_date_only
              {| resp_status_code := 429;
                 resp_json := Returned (PyDict rate_limited_body) |}
              (PyDict rate_limited_body) eq_refl eq_refl) as (Hiff & _).
  - discriminate.
  - apply (proj2 Hiff). exists rate_limited_body. split; [reflexivity|].
    right. right. eexists. reflexivity.
Defined.

(** ** What a caller can read off the result *)

(** X7: a returned [ErrorDetails] never has status 200: it has the sentinel
    500 when the request or the parsing failed, and otherwise the status of
    the answer, which is then not 200.  A returned batch means the answer
    was parsed and had status 200. *)
Theorem ErrorDetails_status_never_OK
    (requests_get : Request → outcome Response) (o : QueryOptions) :
  (∀ d, get_nasa_apod requests_get o = Returned (inr d) →
     int_of_status (status_code d) ≠ HTTPStatus.OK) ∧
  (∀ r, get_nasa_apod requests_get o = Returned (inl r) →
     ∃ resp body, requests_get (request o) = Returned resp ∧
                  resp_json resp = Returned body ∧
                  resp_status_code resp = HTTPStatus.OK).
Proof.
  destruct (requests_get (request o)) as [resp|x] eqn:Hget.
  - destruct (resp_json resp) as [body|x] eqn:Hjson.
    + destruct (decide (resp_status_code resp = HTTPStatus.OK)) as [Hst|Hst].
      * split; [|by eauto].
        intros d. rewrite (get_nasa_apod_ok _ _ _ _ Hget Hjson Hst).
        by destruct (for_items _ _).
      * split.
        -- intros d. rewrite (get_nasa_apod_not_ok _ _ _ _ Hget Hjson Hst).
           destruct (py_get body "msg" PyNone) as [msg|]; [simpl|done].
           destruct (truthy msg); simpl; [by intros [= <-]|].
           destruct (py_get body "error" _) as [err|]; [simpl|done].
           destruct (py_get err "message" _); [simpl|done].
           by intros [= <-].
        -- intros r Hres.
           by destruct (get_nasa_apod_batch _ _ _ _ _ Hget Hjson Hres).
    + destruct (is_Exception x) eqn:Hx.
      * destruct x as [e| |]; try done.
        rewrite (get_nasa_apod_json_raises _ _ _ e Hget Hjson).
        split; [by intros d [= <-]|done].
      * by rewrite (get_nasa_apod_not_caught _ _ x Hx) by eauto.
  - destruct (is_Exception x) eqn:Hx.
    + destruct x as [e| |]; try done.
      rewrite (get_nasa_apod_get_raises _ _ e Hget).
      split; [by intros d [= <-]|done].
    + by rewrite (get_nasa_apod_not_caught _ _ x Hx) by eauto.
Qed.

Lemma ErrorDetails_status_never_OK_witness :
  int_of_status
    (status_code {| status_code := IntStatus 429;
                    message := PyStr "rate limited" |})
    ≠ HTTPStatus.OK.
Proof.
  apply (proj1 (ErrorDetails_status_never_OK
                  (answers 429 (PyDict rate_limited_body)) start_date_only)).
  vm_compute. reflexivity.
Defined.

(** ** Items are mapped one by one *)

(** X8: no state is carried from one item to the next: when the arrays
    [l1] and [l2] each give a batch, the array [l1 ++ l2] gives the entries
    of the first batch followed by those of the second; and when the
    concatenation gives a batch, so does each part. *)
Theorem get_nasa_apod_batch_app (o : QueryOptions) (l1 l2 : list pyval) :
  (∀ r1 r2,
     get_nasa_apod (answers 200 (PyList l1)) o = Returned (inl r1) →
     get_nasa_apod (answers 200 (PyList l2)) o = Returned (inl r2) →
     get_nasa_apod (answers 200 (PyList (l1 ++ l2))) o =
       Returned (inl {| nasa_apods := nasa_apods r1 ++ nasa_apods r2 |})) ∧
  (∀ r,
     get_nasa_apod (answers 200 (PyList (l1 ++ l2))) o = Returned (inl r) →
     ∃ r1 r2,
       get_nasa_apod (answers 200 (PyList l1)) o = Returned (inl r1) ∧
       get_nasa_apod (answers 200 (PyList l2)) o = Returned (inl r2) ∧
       nasa_apods r = nasa_apods r1 ++ nasa_apods r2).
Proof.
  assert (∀ l, get_nasa_apod (answers 200 (PyList l)) o =
               (nasa_apods ← for_items l [];
                mret (inl {| nasa_apods := nasa_apods |})))
    as Hok.
  { intros l.
    exact (get_nasa_apod_ok (answers 200 (PyList l)) o
             {| resp_status_code := 200; resp_json := Returned (PyList l) |}
             (PyList l) eq_refl eq_refl eq_refl). }
  rewrite !Hok. split.
  - intros r1 r2 H1 H2.
    destruct (for_items l1 []) as [es1|] eqn:Hl1; [|done].
    destruct (for_items l2 []) as [es2|] eqn:Hl2; [|done].
    simpl in H1, H2. injection H1 as <-. injection H2 as <-. simpl.
    apply for_items_Returned in Hl1 as (es1' & Hall1 & ->).
    apply for_items_Returned in Hl2 as (es2' & Hall2 & ->).
    assert (for_items (l1 ++ l2) [] = Returned ([] ++ (es1' ++ es2'))) as ->.
    { apply for_items_Returned. exists (es1' ++ es2').
      split; [by apply Forall2_app|done]. }
    done.
  - intros r Hres.
    destruct (for_items (l1 ++ l2) []) as [es|] eqn:Hl; [|done].
    simpl in Hres. injection Hres as <-. simpl.
    apply for_items_Returned in Hl as (es' & Hall & ->).
    apply Forall2_app_inv_l in Hall as (es1 & es2 & Hall1 & Hall2 & ->).
    assert (for_items l1 [] = Returned ([] ++ es1)) as ->
      by (apply for_items_Returned; eauto).
    assert (for_items l2 [] = Returned ([] ++ es2)) as ->
      by (apply for_items_Returned; eauto).
    simpl. eauto.
Qed.

Lemma get_nasa_apod_batch_app_witness :
  get_nasa_apod
    (answers 200 (PyList ([PyDict image_item] ++ [PyDict bare_item])))
    start_date_only =
  Returned (inl {| nasa_apods := [image_entry] ++ [bare_entry] |}).
Proof.
  apply (proj1 (get_nasa_apod_batch_app start_date_only
                  [PyDict image_item] [PyDict bare_item])
           {| nasa_apods := [image_entry] |}
           {| nasa_apods := [bare_entry] |}).
  - vm_compute. reflexivity.
  - vm_compute. reflexivity.
Defined.
